(** * FastAPI application class (applications.py)

    A shallow embedding of [class FastAPI(Starlette)] and of the three
    methods it adds to the base application: [openapi], [add_api_route]
    and [include_router], together with the keyword forwarding performed
    by [__init__].

    Python objects live in a store.  Route objects and list objects are
    addressed by location, so that two lists can hold the same route
    object, and two names can denote the same list object. *)

From stdpp Require Import gmap strings list fin_maps.

Set Warnings "-register-all".

Open Scope string_scope.
Open Scope list_scope.

(** ** Python values *)

(** The values the class handles without looking inside them (endpoints,
    response models, middleware, handlers) and the literals it builds. *)
Inductive pyobj : Type :=
| PNone
| PBool (b : bool)
| PStr (s : string)
| PList (xs : list pyobj)
| PDict (kvs : list (string * pyobj))
| PRef (id : positive).

(** ** Route objects *)

(** Modelled from the spec: the [APIRoute] class of [fastapi.routing] is
    imported by applications.py but is not part of the excerpt.  An
    instance is taken to be the record of the keyword arguments it was
    constructed with; [path] is the attribute [include_router] reads and
    assigns. *)
Record APIRoute : Type := mkAPIRoute {
  path : string;
  endpoint : pyobj;
  methods : list string;
  response_model : pyobj;
  kwargs : gmap string pyobj
}.

(** A route object is an [APIRoute] instance or an instance of some other
    [BaseRoute] class (Starlette's [Route], [Mount], ...), of which only
    its path and an opaque remainder are kept. *)
Inductive route : Type :=
| RAPI (a : APIRoute)
| ROther (opath : string) (rest : pyobj).

(** [isinstance(route, APIRoute)] *)
Definition isinstance_APIRoute (r : route) : bool :=
  match r with RAPI _ => true | ROther _ _ => false end.

Definition set_path (p : string) (a : APIRoute) : APIRoute :=
  {| path := p; endpoint := endpoint a; methods := methods a;
     response_model := response_model a; kwargs := kwargs a |}.

(** ** The store *)

Abbreviation loc := positive.

(** [objs] holds the route objects, [lsts] the list objects; a list
    object holds references to route objects. *)
Record heap : Type := Heap {
  objs : gmap loc route;
  lsts : gmap loc (list loc)
}.

(** The application object: [self.routes] is the list object of the
    base class (Starlette's [routes] property hands out the router's own
    list, so [self.routes.append] grows it in place). *)
Record FastAPI : Type := mkFastAPI { routes : loc }.

(** An [APIRouter]: [router.routes] is a list object. *)
Record APIRouter : Type := mkAPIRouter { router_routes : loc }.

(** Outcome of running a method on a store. *)
Inductive outcome (A : Type) : Type :=
| Done (a : A)
| OutOfFuel
| Stuck.
Arguments Done {A} a.
Arguments OutOfFuel {A}.
Arguments Stuck {A}.

(** [lst.append(x)], in place. *)
Definition list_append (l x : loc) (h : heap) : option heap :=
  match lsts h !! l with
  | Some xs => Some (Heap (objs h) (<[l := xs ++ [x]]> (lsts h)))
  | None => None
  end.

(** Allocation of a new route object. *)
Definition new_loc (h : heap) : loc := fresh (dom (objs h)).

Definition alloc_route (r : route) (h : heap) : loc * heap :=
  let l := new_loc h in (l, Heap (<[l := r]> (objs h)) (lsts h)).

(** ** [openapi] *)

Definition openapi_schema : pyobj :=
  PDict [("openapi", PStr "3.1.0");
         ("info", PDict [("title", PStr "FastAPI"); ("version", PStr "0.1.0")]);
         ("paths", PDict [])].

(** Truth value of a list: [not xs] holds for the empty list only. *)
Definition list_truthy {A} (xs : list A) : bool :=
  match xs with [] => false | _ :: _ => true end.

Definition openapi (self : FastAPI) (h : heap) : outcome pyobj :=
  match lsts h !! routes self with
  | None => Stuck
  | Some rs =>
      if negb (list_truthy rs)
      then Done (PDict [("openapi", PStr "3.1.0");
                        ("info", PDict [("title", PStr "FastAPI"); ("version", PStr "0.1.0")]);
                        ("paths", PDict [])])
      else Done (PDict [("openapi", PStr "3.1.0");
                        ("info", PDict [("title", PStr "FastAPI"); ("version", PStr "0.1.0")]);
                        ("paths", PDict [])])
  end.

(** ** [add_api_route] *)

(** [methods or ["GET"]]: [None] and the empty list are false. *)
Definition methods_or_GET (ms : option (list string)) : list string :=
  match ms with
  | None => ["GET"]
  | Some xs => if list_truthy xs then xs else ["GET"]
  end.

Definition add_api_route (self : FastAPI) (p : string) (ep : pyobj)
    (ms : option (list string)) (rm : pyobj) (kw : gmap string pyobj)
    (h : heap) : outcome heap :=
  let route := RAPI {| path := p; endpoint := ep; methods := methods_or_GET ms;
                       response_model := rm; kwargs := kw |} in
  let '(l, h1) := alloc_route route h in
  match list_append (routes self) l h1 with
  | Some h2 => Done h2
  | None => Stuck
  end.

(** ** [include_router] *)

(** [route.path = prefix + route.path], an attribute assignment on the
    object at [r]. *)
Definition prefix_path (prefix : string) (a : APIRoute) : APIRoute :=
  set_path (prefix +:+ path a) a.

Definition store_route (r : loc) (o : route) (h : heap) : heap :=
  Heap (<[r := o]> (objs h)) (lsts h).

(** The body of the loop, for the object [r] the iterator returned. *)
Definition include_body (self : FastAPI) (prefix : string) (r : loc)
    (h : heap) : option heap :=
  match objs h !! r with
  | None => None
  | Some o =>
      let h1 := match o with
                | RAPI a => store_route r (RAPI (prefix_path prefix a)) h
                | ROther _ _ => h
                end in
      list_append (routes self) r h1
  end.

(** [for route in L: body].  The list iterator keeps the list object [L]
    and an index [i]; before each round it reads the current contents of
    [L] and stops when [i] is past the end. *)
Fixpoint for_routes (fuel : nat) (self : FastAPI) (prefix : string)
    (L : loc) (i : nat) (h : heap) : outcome heap :=
  match fuel with
  | O => OutOfFuel
  | S fuel' =>
      match lsts h !! L with
      | None => Stuck
      | Some xs =>
          match xs !! i with
          | None => Done h
          | Some r =>
              match include_body self prefix r h with
              | Some h' => for_routes fuel' self prefix L (S i) h'
              | None => Stuck
              end
          end
      end
  end.

Definition include_router (fuel : nat) (self : FastAPI) (router : APIRouter)
    (prefix : string) (h : heap) : outcome heap :=
  for_routes fuel self prefix (router_routes router) 0 h.

(** ** [__init__] *)

(** The parameters of the keyword-only signature, after binding. *)
Record init_params : Type := mkInit {
  debug : pyobj;
  init_routes : pyobj;
  middleware : pyobj;
  exception_handlers : pyobj;
  on_startup : pyobj;
  on_shutdown : pyobj;
  lifespan : pyobj;
  extra : gmap string pyobj
}.

Definition init_names : list string :=
  ["debug"; "routes"; "middleware"; "exception_handlers";
   "on_startup"; "on_shutdown"; "lifespan"].

(** Binding of a call with keywords [kw] to the signature: a named
    parameter takes the caller's value or its default, and [extra]
    collects the keywords that name no parameter. *)
Definition bind_init (kw : gmap string pyobj) : init_params :=
  {| debug := default (PBool false) (kw !! "debug");
     init_routes := default PNone (kw !! "routes");
     middleware := default PNone (kw !! "middleware");
     exception_handlers := default PNone (kw !! "exception_handlers");
     on_startup := default PNone (kw !! "on_startup");
     on_shutdown := default PNone (kw !! "on_shutdown");
     lifespan := default PNone (kw !! "lifespan");
     extra := filter (fun kv => kv.1 ∉ init_names) kw |}.

(** The keywords of the call to [super().__init__]: the seven named
    ones, then those of [extra]. *)
Definition super_kwargs (a : init_params) : gmap string pyobj :=
  <["debug" := debug a]>
  (<["routes" := init_routes a]>
  (<["middleware" := middleware a]>
  (<["exception_handlers" := exception_handlers a]>
  (<["on_startup" := on_startup a]>
  (<["on_shutdown" := on_shutdown a]>
  (<["lifespan" := lifespan a]> (extra a))))))).

Section Init.

(** The constructor of the base class, from outside the repository: any
    function of the keywords it is called with. *)
Context {R : Type} (Starlette_init : gmap string pyobj -> R).

(** [__init__]: a single call of the base constructor. *)
Definition FastAPI_init (kw : gmap string pyobj) : R :=
  Starlette_init (super_kwargs (bind_init kw)).

End Init.

(** The defaults of the signature. *)
Definition init_defaults : gmap string pyobj :=
  list_to_map [("debug", PBool false); ("routes", PNone); ("middleware", PNone);
               ("exception_handlers", PNone); ("on_startup", PNone);
               ("on_shutdown", PNone); ("lifespan", PNone)].

(** ** Specification devices for [include_router] *)

(** What one round of the loop does to the object it visits. *)
Definition prefix_route (prefix : string) (o : route) : route :=
  match o with
  | RAPI a => RAPI (prefix_path prefix a)
  | ROther _ _ => o
  end.

(** How many entries of a list refer to the object at [l]. *)
Fixpoint occurrences (l : loc) (xs : list loc) : nat :=
  match xs with
  | [] => 0
  | x :: xs' => (if decide (x = l) then 1 else 0) + occurrences l xs'
  end.

(** [prefix] written [k] times in front of [s]. *)
Definition prefixed (k : nat) (prefix s : string) : string :=
  Nat.iter k (String.append prefix) s.

(** Every reference in the list points to a live route object. *)
Definition live (h : heap) (xs : list loc) : Prop :=
  Forall (fun r => is_Some (objs h !! r)) xs.

(** Every list object of the store holds live references only. *)
Definition wf_store (h : heap) : Prop :=
  forall (l : loc) (xs : list loc), lsts h !! l = Some xs -> live h xs.

(** ** Example stores *)

(** An application with two registered routes. *)
Definition two_route_store : heap :=
  Heap {[ 1%positive := RAPI (mkAPIRoute "/items" (PRef 7) ["GET"] PNone ∅);
          2%positive := ROther "/static" (PRef 8) ]}
       {[ 5%positive := [1%positive; 2%positive] ]}.

(** A router holding an [APIRoute] and a mount, and an application that
    already has one route of its own. *)
Definition router_store : heap :=
  Heap {[ 1%positive := RAPI (mkAPIRoute "/items" (PRef 7) ["GET"] PNone ∅);
          2%positive := ROther "/static" (PRef 8);
          3%positive := RAPI (mkAPIRoute "/users" (PRef 9) ["GET"; "POST"] PNone ∅) ]}
       {[ 5%positive := [3%positive];
          6%positive := [1%positive; 2%positive] ]}.

(** A router whose list holds the same [APIRoute] object twice. *)
Definition twice_listed_store : heap :=
  Heap {[ 1%positive := RAPI (mkAPIRoute "/x" (PRef 7) ["GET"] PNone ∅) ]}
       {[ 10%positive := []; 20%positive := [1%positive; 1%positive] ]}.

(** A router with three entries for two objects. *)
Definition three_entry_store : heap :=
  Heap {[ 1%positive := RAPI (mkAPIRoute "/a" (PRef 7) ["GET"] PNone ∅);
          2%positive := RAPI (mkAPIRoute "/b" (PRef 8) ["GET"] PNone ∅) ]}
       {[ 5%positive := []; 6%positive := [2%positive; 1%positive; 2%positive] ]}.

(** A call that names every parameter and one keyword more. *)
Definition full_call : gmap string pyobj :=
  list_to_map [("debug", PBool true); ("routes", PList []); ("middleware", PList []);
               ("exception_handlers", PDict []); ("on_startup", PList []);
               ("on_shutdown", PList []); ("lifespan", PRef 4); ("title", PStr "shop")].

(** A base constructor whose result shows whether it was passed the
    keyword [on_startup], and with which value. *)
Definition reports_on_startup (kw : gmap string pyobj) : option pyobj :=
  kw !! "on_startup".

(** * Properties *)

(** ** Store operations *)

Lemma new_loc_fresh (h : heap) : objs h !! new_loc h = None.
Proof.
  unfold new_loc. apply not_elem_of_dom. apply is_fresh.
Qed.

Lemma list_append_Some (l x : loc) (h : heap) (xs : list loc) :
  lsts h !! l = Some xs ->
  list_append l x h = Some (Heap (objs h) (<[l := xs ++ [x]]> (lsts h))).
Proof. intros H. unfold list_append. by rewrite H. Qed.

(** ** [openapi] *)

(** C1: whatever the routes list of the application holds, empty or not,
    [openapi] returns the dictionary with "openapi" 3.1.0, the "info" of
    title FastAPI and version 0.1.0, and an empty "paths" dictionary; the
    result is the same for any two application states. *)
Theorem openapi_is_constant_stub (self : FastAPI) (h : heap) (rs : list loc) :
  lsts h !! routes self = Some rs ->
  openapi self h =
    Done (PDict [("openapi", PStr "3.1.0");
                 ("info", PDict [("title", PStr "FastAPI"); ("version", PStr "0.1.0")]);
                 ("paths", PDict [])])
  /\ (forall (self' : FastAPI) (h' : heap) (rs' : list loc),
        lsts h' !! routes self' = Some rs' ->
        openapi self' h' = openapi self h).
Proof.
  intros H.
  assert (Hc : forall s g (l : list loc), lsts g !! routes s = Some l ->
               openapi s g = Done openapi_schema).
  { intros s g l Hl. unfold openapi. rewrite Hl. by destruct l. }
  split.
  - by rewrite (Hc _ _ _ H).
  - intros s g l Hl. by rewrite (Hc _ _ _ Hl), (Hc _ _ _ H).
Qed.

Lemma openapi_is_constant_stub_witness :
  lsts two_route_store !! routes (mkFastAPI 5) = Some [1%positive; 2%positive]
  /\ openapi (mkFastAPI 5) two_route_store = Done openapi_schema.
Proof.
  split; [reflexivity |].
  exact (proj1 (openapi_is_constant_stub (mkFastAPI 5) two_route_store
                  [1%positive; 2%positive] eq_refl)).
Defined.

(** ** [add_api_route] *)

Lemma add_api_route_Done (self : FastAPI) p ep ms rm kw (h : heap) (ys : list loc) :
  lsts h !! routes self = Some ys ->
  add_api_route self p ep ms rm kw h =
    Done (Heap (<[new_loc h := RAPI (mkAPIRoute p ep (methods_or_GET ms) rm kw)]> (objs h))
               (<[routes self := ys ++ [new_loc h]]> (lsts h))).
Proof.
  intros H. unfold add_api_route, alloc_route.
  by rewrite (list_append_Some _ _ _ ys).
Qed.

(** C2: [add_api_route] allocates one new [APIRoute] object and appends
    it at the end of the routes list; every route object stored before is
    unchanged, and so is every other list object. *)
Theorem add_api_route_appends_one (self : FastAPI) (p : string) (ep : pyobj)
    (ms : option (list string)) (rm : pyobj) (kw : gmap string pyobj)
    (h : heap) (ys : list loc) :
  lsts h !! routes self = Some ys ->
  exists (h' : heap) (l : loc) (a : APIRoute),
    add_api_route self p ep ms rm kw h = Done h'
    /\ objs h !! l = None
    /\ objs h' !! l = Some (RAPI a)
    /\ lsts h' !! routes self = Some (ys ++ [l])
    /\ (forall (l' : loc) (o : route), objs h !! l' = Some o -> objs h' !! l' = Some o)
    /\ (forall l' : loc, l' ≠ l -> objs h' !! l' = objs h !! l')
    /\ (forall L : loc, L ≠ routes self -> lsts h' !! L = lsts h !! L).
Proof.
  intros H. eexists _, (new_loc h), _.
  split; [by apply add_api_route_Done |]. simpl.
  pose proof (new_loc_fresh h) as Hf.
  split; [done |].
  split; [by rewrite lookup_insert_eq |].
  split; [by rewrite lookup_insert_eq |].
  split; [| split].
  - intros l' o Ho. rewrite lookup_insert_ne; [done | congruence].
  - intros l' Hne. by rewrite lookup_insert_ne.
  - intros L Hne. by rewrite lookup_insert_ne.
Qed.

Lemma add_api_route_appends_one_witness :
  lsts two_route_store !! routes (mkFastAPI 5) = Some [1%positive; 2%positive]
  /\ exists (h' : heap) (l : loc) (a : APIRoute),
      add_api_route (mkFastAPI 5) "/users" (PRef 9) None PNone ∅ two_route_store = Done h'
      /\ objs two_route_store !! l = None
      /\ objs h' !! l = Some (RAPI a)
      /\ lsts h' !! routes (mkFastAPI 5) = Some ([1%positive; 2%positive] ++ [l])
      /\ (forall (l' : loc) (o : route),
            objs two_route_store !! l' = Some o -> objs h' !! l' = Some o)
      /\ (forall l' : loc, l' ≠ l -> objs h' !! l' = objs two_route_store !! l')
      /\ (forall L : loc, L ≠ routes (mkFastAPI 5) ->
            lsts h' !! L = lsts two_route_store !! L).
Proof.
  split; [reflexivity |].
  exact (add_api_route_appends_one (mkFastAPI 5) "/users" (PRef 9) None PNone ∅
           two_route_store [1%positive; 2%positive] eq_refl).
Defined.

(** C7: the route created by [add_api_route] has methods GET alone when
    the methods argument is None or the empty list, and the given list
    when that is not empty; path, endpoint and response model are the
    arguments of the call. *)
Theorem add_api_route_default_methods (self : FastAPI) (p : string) (ep : pyobj)
    (ms : option (list string)) (rm : pyobj) (kw : gmap string pyobj)
    (h : heap) (ys : list loc) :
  lsts h !! routes self = Some ys ->
  exists (h' : heap) (l : loc) (a : APIRoute),
    add_api_route self p ep ms rm kw h = Done h'
    /\ lsts h' !! routes self = Some (ys ++ [l])
    /\ objs h' !! l = Some (RAPI a)
    /\ (ms = None \/ ms = Some [] -> methods a = ["GET"])
    /\ (forall xs : list string, ms = Some xs -> xs ≠ [] -> methods a = xs)
    /\ path a = p /\ endpoint a = ep /\ response_model a = rm /\ kwargs a = kw.
Proof.
  intros H. eexists _, (new_loc h), _.
  split; [by apply add_api_route_Done |]. simpl.
  split; [by rewrite lookup_insert_eq |].
  split; [by rewrite lookup_insert_eq |]. simpl.
  split; [| split; [| done]].
  - by intros [-> | ->].
  - intros xs -> Hne. by destruct xs.
Qed.

Lemma add_api_route_default_methods_witness :
  lsts two_route_store !! routes (mkFastAPI 5) = Some [1%positive; 2%positive]
  /\ exists (h' : heap) (l : loc) (a : APIRoute),
      add_api_route (mkFastAPI 5) "/users" (PRef 9) (Some []) (PRef 3) ∅ two_route_store
        = Done h'
      /\ lsts h' !! routes (mkFastAPI 5) = Some ([1%positive; 2%positive] ++ [l])
      /\ objs h' !! l = Some (RAPI a)
      /\ (Some (@nil string) = None \/ Some (@nil string) = Some [] -> methods a = ["GET"])
      /\ (forall xs : list string, Some [] = Some xs -> xs ≠ [] -> methods a = xs)
      /\ path a = "/users" /\ endpoint a = PRef 9 /\ response_model a = PRef 3
      /\ kwargs a = ∅.
Proof.
  split; [reflexivity |].
  exact (add_api_route_default_methods (mkFastAPI 5) "/users" (PRef 9) (Some []) (PRef 3) ∅
           two_route_store [1%positive; 2%positive] eq_refl).
Defined.

(** ** [include_router]: one round *)

Lemma include_body_Some (self : FastAPI) (p : string) (r : loc) (h : heap)
    (o : route) (zs : list loc) :
  objs h !! r = Some o ->
  lsts h !! routes self = Some zs ->
  include_body self p r h =
    Some (Heap (<[r := prefix_route p o]> (objs h))
               (<[routes self := zs ++ [r]]> (lsts h))).
Proof.
  intros Ho Hz. unfold include_body. rewrite Ho.
  destruct o as [a | q rest]; simpl.
  - unfold list_append, store_route; simpl. by rewrite Hz.
  - rewrite (list_append_Some _ _ _ zs Hz). by rewrite (insert_id (objs h) r _ Ho).
Qed.

Lemma include_body_inv (self : FastAPI) (p : string) (r : loc) (h h1 : heap) :
  include_body self p r h = Some h1 ->
  exists (o : route) (zs : list loc),
    objs h !! r = Some o /\ lsts h !! routes self = Some zs
    /\ h1 = Heap (<[r := prefix_route p o]> (objs h))
                 (<[routes self := zs ++ [r]]> (lsts h)).
Proof.
  intros Hb. destruct (objs h !! r) as [o |] eqn:Ho.
  - destruct (lsts h !! routes self) as [zs |] eqn:Hz.
    + exists o, zs. rewrite (include_body_Some _ _ _ _ o zs Ho Hz) in Hb.
      by inversion Hb.
    + unfold include_body in Hb. rewrite Ho in Hb.
      unfold list_append in Hb. by destruct o; simpl in Hb; rewrite Hz in Hb.
  - unfold include_body in Hb. by rewrite Ho in Hb.
Qed.

(** ** [include_router]: what holds after any number of rounds *)

Lemma for_routes_invariant (P : heap -> Prop) (self : FastAPI) (p : string) (L : loc) :
  (forall (r : loc) (h h1 : heap), P h -> include_body self p r h = Some h1 -> P h1) ->
  forall (fuel i : nat) (h h' : heap),
    P h -> for_routes fuel self p L i h = Done h' -> P h'.
Proof.
  intros Hstep. induction fuel as [| fuel IH]; intros i h h' HP Hrun; [done |].
  simpl in Hrun.
  destruct (lsts h !! L) as [xs |]; [| done].
  destruct (xs !! i) as [r |]; [| by inversion Hrun; subst].
  destruct (include_body self p r h) as [h1 |] eqn:Hb; [| done].
  eapply IH; [| exact Hrun]. by eapply Hstep.
Qed.

Lemma for_routes_grows (self : FastAPI) (p : string) (L : loc) (ys : list loc)
    (fuel i : nat) (h h' : heap) :
  lsts h !! routes self = Some ys ->
  for_routes fuel self p L i h = Done h' ->
  exists zs : list loc, lsts h' !! routes self = Some zs /\ ys `prefix_of` zs.
Proof.
  intros Hy Hrun.
  apply (for_routes_invariant
           (fun g => exists zs, lsts g !! routes self = Some zs /\ ys `prefix_of` zs)
           self p L) with (fuel := fuel) (i := i) (h := h); [| by exists ys | done].
  intros r g g1 (zs & Hz & Hpre) Hb.
  apply include_body_inv in Hb as (o & zs' & _ & Hz' & ->). simpl.
  exists (zs ++ [r]). rewrite lookup_insert_eq.
  split; [congruence |]. by apply prefix_app_r.
Qed.

Lemma for_routes_keeps_other (self : FastAPI) (p : string) (L : loc) (l : loc)
    (o : route) (fuel i : nat) (h h' : heap) :
  objs h !! l = Some o ->
  isinstance_APIRoute o = false ->
  for_routes fuel self p L i h = Done h' ->
  objs h' !! l = Some o.
Proof.
  intros Ho Hk Hrun.
  apply (for_routes_invariant (fun g => objs g !! l = Some o) self p L)
    with (fuel := fuel) (i := i) (h := h); [| done | done].
  intros r g g1 Hg Hb.
  apply include_body_inv in Hb as (o' & zs & Ho' & _ & ->). simpl.
  destruct (decide (r = l)) as [-> | Hne].
  - rewrite lookup_insert_eq. rewrite Hg in Ho'. inversion Ho'; subst o'.
    by destruct o.
  - by rewrite lookup_insert_ne.
Qed.

Lemma for_routes_more_fuel (self : FastAPI) (p : string) (L : loc)
    (n m i : nat) (h h' : heap) :
  n <= m ->
  for_routes n self p L i h = Done h' ->
  for_routes m self p L i h = Done h'.
Proof.
  revert m i h. induction n as [| n IH]; intros m i h Hle Hrun; [done |].
  destruct m as [| m]; [lia |]. simpl in *.
  destruct (lsts h !! L) as [xs |]; [| done].
  destruct (xs !! i) as [r |]; [| done].
  destruct (include_body self p r h) as [h1 |]; [| done].
  apply IH; [lia | done].
Qed.

(** ** [include_router] on a list that is not the application's own *)

Lemma live_insert (h : heap) (xs : list loc) (r : loc) (o : route) (ls : gmap loc (list loc)) :
  live h xs -> live (Heap (<[r := o]> (objs h)) ls) xs.
Proof.
  unfold live. intros H. eapply Forall_impl; [exact H |]. intros l Hl. simpl.
  destruct (decide (r = l)) as [-> | Hne].
  - by rewrite lookup_insert_eq.
  - by rewrite lookup_insert_ne.
Qed.

Lemma iter_prefix_route_succ (p : string) (k : nat) (o : route) :
  Nat.iter k (prefix_route p) (prefix_route p o) = Nat.iter (S k) (prefix_route p) o.
Proof.
  induction k as [| k IH]; [done |]. simpl in *. by rewrite IH.
Qed.

Lemma for_routes_distinct (self : FastAPI) (p : string) (L : loc) :
  L ≠ routes self ->
  forall (rest pre : list loc) (h : heap) (zs : list loc) (fuel : nat),
    lsts h !! L = Some (pre ++ rest) ->
    lsts h !! routes self = Some zs ->
    live h rest ->
    length rest < fuel ->
    exists h' : heap,
      for_routes fuel self p L (length pre) h = Done h'
      /\ lsts h' = <[routes self := zs ++ rest]> (lsts h)
      /\ (forall l : loc,
            objs h' !! l = Nat.iter (occurrences l rest) (prefix_route p) <$> objs h !! l).
Proof.
  intros Hne. induction rest as [| r rest IH]; intros pre h zs fuel HL HA Hlive Hfuel.
  - destruct fuel as [| fuel]; [simpl in Hfuel; lia |].
    exists h. simpl. rewrite HL, app_nil_r.
    rewrite (lookup_ge_None_2 pre (length pre)); [| lia].
    split; [done |]. split.
    + by rewrite app_nil_r, insert_id.
    + intros l. by destruct (objs h !! l).
  - destruct fuel as [| fuel]; [simpl in Hfuel; lia |].
    apply Forall_cons in Hlive as [[o Ho] Hlive].
    simpl. rewrite HL.
    rewrite (list_lookup_middle pre rest r (length pre) eq_refl).
    rewrite (include_body_Some self p r h o zs Ho HA).
    destruct (IH (pre ++ [r])
                (Heap (<[r := prefix_route p o]> (objs h))
                      (<[routes self := zs ++ [r]]> (lsts h)))
                (zs ++ [r]) fuel) as (h' & Hrun & Hl & Ho').
    + simpl. rewrite lookup_insert_ne; [| done]. by rewrite <- app_assoc.
    + simpl. by rewrite lookup_insert_eq.
    + by apply live_insert.
    + simpl in Hfuel. lia.
    + exists h'. rewrite length_app in Hrun. simpl in Hrun.
      replace (length pre + 1) with (S (length pre)) in Hrun by lia.
      split; [done |]. split.
      * rewrite Hl. simpl. rewrite insert_insert_eq. by rewrite <- app_assoc.
      * intros l. rewrite Ho'. simpl objs.
        destruct (decide (r = l)) as [-> | Hrl].
        -- rewrite lookup_insert_eq, Ho. simpl.
           f_equal. apply iter_prefix_route_succ.
        -- by rewrite lookup_insert_ne.
Qed.

(** The whole call, when [router.routes] is not the list [self.routes]. *)
Lemma include_router_Done (self : FastAPI) (router : APIRouter) (p : string)
    (h : heap) (xs ys : list loc) (fuel : nat) :
  router_routes router ≠ routes self ->
  lsts h !! router_routes router = Some xs ->
  lsts h !! routes self = Some ys ->
  live h xs ->
  length xs < fuel ->
  exists h' : heap,
    include_router fuel self router p h = Done h'
    /\ lsts h' = <[routes self := ys ++ xs]> (lsts h)
    /\ (forall l : loc,
          objs h' !! l = Nat.iter (occurrences l xs) (prefix_route p) <$> objs h !! l).
Proof.
  intros Hne HL HA Hlive Hfuel. unfold include_router.
  exact (for_routes_distinct self p (router_routes router) Hne xs [] h ys fuel
           HL HA Hlive Hfuel).
Qed.

Lemma iter_prefix_route_API (p : string) (k : nat) (a : APIRoute) :
  exists a' : APIRoute,
    Nat.iter k (prefix_route p) (RAPI a) = RAPI a'
    /\ path a' = prefixed k p (path a)
    /\ endpoint a' = endpoint a /\ methods a' = methods a
    /\ response_model a' = response_model a /\ kwargs a' = kwargs a.
Proof.
  induction k as [| k (a' & Hk & Hp & He & Hm & Hr & Hkw)].
  - by exists a.
  - exists (prefix_path p a'). simpl. rewrite Hk. simpl.
    unfold prefixed in *. simpl. by rewrite Hp.
Qed.

Lemma occurrences_elem (l : loc) (xs : list loc) : l ∈ xs -> 0 < occurrences l xs.
Proof.
  induction xs as [| x xs IH]; intros Hin.
  - by apply elem_of_nil in Hin.
  - simpl. destruct (decide (x = l)); [lia |].
    apply elem_of_cons in Hin as [-> | Hin]; [done |]. specialize (IH Hin). lia.
Qed.

(** ** [include_router] on the application's own list *)

Lemma for_routes_own_list (self : FastAPI) (p : string) (fuel i : nat)
    (h : heap) (xs : list loc) :
  lsts h !! routes self = Some xs ->
  i < length xs ->
  forall h' : heap, for_routes fuel self p (routes self) i h ≠ Done h'.
Proof.
  revert i h xs. induction fuel as [| fuel IH]; intros i h xs Hx Hi h'; [done |].
  simpl. rewrite Hx.
  destruct (lookup_lt_is_Some_2 xs i Hi) as [r Hr]. rewrite Hr.
  destruct (include_body self p r h) as [h1 |] eqn:Hb; [| done].
  apply include_body_inv in Hb as (o & zs & _ & Hz & ->).
  apply (IH (S i) _ (zs ++ [r])).
  - simpl. by rewrite lookup_insert_eq.
  - rewrite length_app. simpl. assert (zs = xs) by congruence. subst. lia.
Qed.

(** A router whose routes list is the application's own non-empty list:
    the iterator never reaches the end of the list it is appending to. *)
Lemma include_router_own_list_never_returns (self : FastAPI) (router : APIRouter)
    (p : string) (h : heap) (r : loc) (xs : list loc) (fuel : nat) (h' : heap) :
  router_routes router = routes self ->
  lsts h !! routes self = Some (r :: xs) ->
  include_router fuel self router p h ≠ Done h'.
Proof.
  intros Heq Hx. unfold include_router. rewrite Heq.
  apply (for_routes_own_list self p fuel 0 h (r :: xs) Hx). simpl. lia.
Qed.

(** ** [__init__] *)

Lemma extra_lookup (kw : gmap string pyobj) (k : string) :
  extra (bind_init kw) !! k = if decide (k ∈ init_names) then None else kw !! k.
Proof.
  simpl. rewrite map_lookup_filter. simpl.
  destruct (kw !! k) as [v |]; simpl.
  - case_decide.
    + by rewrite option_guard_False by (intros Hn; by apply Hn).
    + by rewrite option_guard_True.
  - by case_decide.
Qed.

Lemma super_kwargs_bind (kw : gmap string pyobj) :
  super_kwargs (bind_init kw) = kw ∪ init_defaults.
Proof.
  apply map_eq. intros k. rewrite lookup_union.
  unfold super_kwargs, init_defaults. cbn [list_to_map foldr uncurry fst snd].
  rewrite !lookup_insert, extra_lookup, lookup_empty.
  unfold init_names.
  repeat (case_decide;
          [ subst k; simpl; match goal with |- context [kw !! ?n] => by destruct (kw !! n) end
          | ]).
  case_decide as Hin.
  - exfalso. rewrite !elem_of_cons in Hin. rewrite elem_of_nil in Hin.
    intuition congruence.
  - by destruct (kw !! k).
Qed.

Lemma init_defaults_names (k : string) :
  is_Some (init_defaults !! k) -> k ∈ init_names.
Proof.
  unfold init_defaults, init_names. cbn [list_to_map foldr uncurry fst snd].
  rewrite !lookup_insert, lookup_empty.
  repeat (case_decide; [subst k; intros _; rewrite !elem_of_cons; tauto |]).
  by intros [? ?].
Qed.

(** C4 (as stated) fails on a call that leaves a parameter out: the
    constructor passes all seven named keywords to the base constructor
    whatever the caller gave, so [FastAPI()] reaches a base constructor
    that looks at [on_startup] with [on_startup=None], where the same
    call of the base class passes no such keyword. *)
Lemma FastAPI_init_omitted_counterexample :
  FastAPI_init reports_on_startup ∅ = Some PNone
  /\ reports_on_startup ∅ = None
  /\ FastAPI_init reports_on_startup ∅ ≠ reports_on_startup ∅.
Proof.
  assert (H1 : FastAPI_init reports_on_startup ∅ = Some PNone).
  { unfold FastAPI_init, reports_on_startup. rewrite super_kwargs_bind.
    rewrite lookup_union, lookup_empty. reflexivity. }
  assert (H2 : reports_on_startup ∅ = None).
  { unfold reports_on_startup. apply lookup_empty. }
  split; [exact H1 |]. split; [exact H2 |].
  rewrite H1, H2. discriminate.
Qed.

(** C4 (amended): the constructor only forwards.  Whatever the
    constructor of the base class is, a call with keywords [kw] is the
    base constructor called with every keyword of [kw] at the caller's
    value, a parameter the caller left out at the default of the
    signature, and nothing else; when the caller names all seven
    parameters, it is the base constructor called with [kw] itself. *)
Theorem FastAPI_init_forwards {R : Type} (Starlette_init : gmap string pyobj -> R)
    (kw : gmap string pyobj) :
  (forall (k : string) (v : pyobj),
      kw !! k = Some v -> super_kwargs (bind_init kw) !! k = Some v)
  /\ (forall k : string,
        kw !! k = None -> super_kwargs (bind_init kw) !! k = init_defaults !! k)
  /\ FastAPI_init Starlette_init kw = Starlette_init (kw ∪ init_defaults)
  /\ ((forall k : string, k ∈ init_names -> is_Some (kw !! k)) ->
        FastAPI_init Starlette_init kw = Starlette_init kw).
Proof.
  unfold FastAPI_init. rewrite super_kwargs_bind.
  split; [| split; [| split]].
  - intros k v Hk. by rewrite lookup_union, Hk; destruct (init_defaults !! k).
  - intros k Hk. by rewrite lookup_union, Hk; destruct (init_defaults !! k).
  - done.
  - intros Hall. f_equal. apply map_eq. intros k. rewrite lookup_union.
    destruct (kw !! k) as [v |] eqn:Hk.
    + by destruct (init_defaults !! k).
    + destruct (init_defaults !! k) as [d |] eqn:Hd; [| done].
      destruct (Hall k (init_defaults_names k (ex_intro _ d Hd))) as [v Hv].
      congruence.
Qed.

Lemma FastAPI_init_forwards_witness :
  (forall k : string, k ∈ init_names -> is_Some (full_call !! k))
  /\ FastAPI_init (fun kw => kw) full_call = full_call.
Proof.
  assert (Hall : forall k : string, k ∈ init_names -> is_Some (full_call !! k)).
  { intros k Hk. unfold init_names in Hk. rewrite !elem_of_cons, elem_of_nil in Hk.
    destruct Hk as [-> | [-> | [-> | [-> | [-> | [-> | [-> | []]]]]]]];
      vm_compute; eauto. }
  split; [exact Hall |].
  exact (proj2 (proj2 (proj2 (FastAPI_init_forwards (fun kw => kw) full_call))) Hall).
Defined.

(** ** [include_router]: the claims *)

Lemma include_router_returns (self : FastAPI) (router : APIRouter) (p : string)
    (h : heap) (xs ys : list loc) :
  router_routes router ≠ routes self ->
  lsts h !! router_routes router = Some xs ->
  lsts h !! routes self = Some ys ->
  live h xs ->
  exists h' : heap,
    (forall fuel : nat, length xs < fuel -> include_router fuel self router p h = Done h')
    /\ lsts h' = <[routes self := ys ++ xs]> (lsts h)
    /\ (forall l : loc,
          objs h' !! l = Nat.iter (occurrences l xs) (prefix_route p) <$> objs h !! l).
Proof.
  intros Hne HL HA Hlive.
  destruct (include_router_Done self router p h xs ys (S (length xs)) Hne HL HA Hlive)
    as (h' & Hrun & Hl & Ho); [lia |].
  exists h'. split; [| done].
  intros fuel Hfuel. unfold include_router in *.
  apply (for_routes_more_fuel self p _ (S (length xs))); [lia | done].
Qed.

Lemma prefixed_add (j k : nat) (p s : string) :
  prefixed j p (prefixed k p s) = prefixed (j + k) p s.
Proof. unfold prefixed. by rewrite Nat.iter_add. Qed.

(** C3 (as stated) fails on a router that lists one [APIRoute] object
    twice: with prefix /v1 the object at /x ends at /v1/v1/x, which is
    not the prefix followed by its previous path. *)
Lemma include_router_twice_listed_counterexample :
  exists (h' : heap) (a a' : APIRoute),
    lsts twice_listed_store !! router_routes (mkAPIRouter 20)
      = Some [1%positive; 1%positive]
    /\ objs twice_listed_store !! 1%positive = Some (RAPI a)
    /\ include_router 3 (mkFastAPI 10) (mkAPIRouter 20) "/v1" twice_listed_store = Done h'
    /\ objs h' !! 1%positive = Some (RAPI a')
    /\ path a = "/x"
    /\ path a' = "/v1/v1/x"
    /\ path a' ≠ "/v1" +:+ path a.
Proof.
  do 3 eexists.
  split; [reflexivity |]. split; [reflexivity |]. split; [reflexivity |].
  split; [reflexivity |]. split; [reflexivity |]. split; [reflexivity |].
  discriminate.
Qed.

(** C3 (amended): when [router.routes] is a list object other than the
    application's routes list, [include_router] returns, the
    application's list is its previous contents followed by the entries
    of [router.routes] in their order, and an [APIRoute] object listed
    [k] times in [router.routes] has the prefix [k] times in front of its
    previous path: the prefix followed by the previous path when it is
    listed once. *)
Theorem include_router_appends_and_prefixes (self : FastAPI) (router : APIRouter)
    (p : string) (h : heap) (xs ys : list loc) :
  router_routes router ≠ routes self ->
  lsts h !! router_routes router = Some xs ->
  lsts h !! routes self = Some ys ->
  live h xs ->
  exists h' : heap,
    (forall fuel : nat, length xs < fuel -> include_router fuel self router p h = Done h')
    /\ lsts h' !! routes self = Some (ys ++ xs)
    /\ (forall (r : loc) (a : APIRoute),
          r ∈ xs -> objs h !! r = Some (RAPI a) ->
          exists a' : APIRoute,
            objs h' !! r = Some (RAPI a')
            /\ 0 < occurrences r xs
            /\ path a' = prefixed (occurrences r xs) p (path a)
            /\ (occurrences r xs = 1 -> path a' = p +:+ path a)).
Proof.
  intros Hne HL HA Hlive.
  destruct (include_router_returns self router p h xs ys Hne HL HA Hlive)
    as (h' & Hrun & Hl & Ho).
  exists h'. split; [done |]. split.
  - by rewrite Hl, lookup_insert_eq.
  - intros r a Hin Hr.
    destruct (iter_prefix_route_API p (occurrences r xs) a) as (a' & Hit & Hp & _).
    exists a'. rewrite Ho, Hr. simpl. rewrite Hit.
    split; [done |]. split; [by apply occurrences_elem |]. split; [done |].
    intros Hone. by rewrite Hp, Hone.
Qed.

Lemma include_router_appends_and_prefixes_witness :
  router_routes (mkAPIRouter 6) ≠ routes (mkFastAPI 5)
  /\ lsts router_store !! router_routes (mkAPIRouter 6) = Some [1%positive; 2%positive]
  /\ lsts router_store !! routes (mkFastAPI 5) = Some [3%positive]
  /\ live router_store [1%positive; 2%positive]
  /\ exists h' : heap,
      include_router 3 (mkFastAPI 5) (mkAPIRouter 6) "/api" router_store = Done h'
      /\ lsts h' !! routes (mkFastAPI 5) = Some [3%positive; 1%positive; 2%positive]
      /\ exists a' : APIRoute,
          objs h' !! 1%positive = Some (RAPI a') /\ path a' = "/api/items".
Proof.
  assert (Hne : router_routes (mkAPIRouter 6) ≠ routes (mkFastAPI 5)) by discriminate.
  assert (Hlive : live router_store [1%positive; 2%positive]).
  { repeat constructor; vm_compute; eauto. }
  split; [exact Hne |]. split; [reflexivity |]. split; [reflexivity |].
  split; [exact Hlive |].
  destruct (include_router_appends_and_prefixes (mkFastAPI 5) (mkAPIRouter 6) "/api"
              router_store [1%positive; 2%positive] [3%positive]
              Hne eq_refl eq_refl Hlive) as (h' & Hrun & Hl & Hpath).
  exists h'. split; [apply Hrun; simpl; lia |]. split; [exact Hl |].
  destruct (Hpath 1%positive (mkAPIRoute "/items" (PRef 7) ["GET"] PNone ∅))
    as (a' & Ha' & _ & _ & Hp); [set_solver | reflexivity |].
  exists a'. split; [exact Ha' |]. by apply Hp.
Defined.

(** C5: both mutating methods only grow the routes list.  After
    [add_api_route], and after any [include_router] call that returns,
    the application's routes list has its previous contents as a prefix;
    [add_api_route] always returns, and [include_router] returns on every
    router whose list is not the application's own. *)
Theorem routes_only_grow (self : FastAPI) (h : heap) (ys : list loc) :
  lsts h !! routes self = Some ys ->
  (forall (p : string) (ep : pyobj) (ms : option (list string)) (rm : pyobj)
          (kw : gmap string pyobj),
      exists (h' : heap) (zs : list loc),
        add_api_route self p ep ms rm kw h = Done h'
        /\ lsts h' !! routes self = Some zs /\ ys `prefix_of` zs)
  /\ (forall (router : APIRouter) (p : string) (fuel : nat) (h' : heap),
        include_router fuel self router p h = Done h' ->
        exists zs : list loc, lsts h' !! routes self = Some zs /\ ys `prefix_of` zs)
  /\ (forall (router : APIRouter) (p : string) (xs : list loc),
        router_routes router ≠ routes self ->
        lsts h !! router_routes router = Some xs ->
        live h xs ->
        exists h' : heap,
          forall fuel : nat, length xs < fuel ->
            include_router fuel self router p h = Done h').
Proof.
  intros HA. split; [| split].
  - intros p ep ms rm kw. eexists _, _.
    split; [by apply add_api_route_Done |]. simpl.
    split; [by rewrite lookup_insert_eq |]. by apply prefix_app_r.
  - intros router p fuel h' Hrun. unfold include_router in Hrun.
    by eapply for_routes_grows.
  - intros router p xs Hne HL Hlive.
    destruct (include_router_returns self router p h xs ys Hne HL HA Hlive)
      as (h' & Hrun & _).
    by exists h'.
Qed.

Lemma routes_only_grow_witness :
  lsts router_store !! routes (mkFastAPI 5) = Some [3%positive]
  /\ (exists (h' : heap) (zs : list loc),
        add_api_route (mkFastAPI 5) "/new" (PRef 2) None PNone ∅ router_store = Done h'
        /\ lsts h' !! routes (mkFastAPI 5) = Some zs /\ [3%positive] `prefix_of` zs)
  /\ (exists h' : heap,
        include_router 3 (mkFastAPI 5) (mkAPIRouter 6) "/api" router_store = Done h').
Proof.
  pose proof (routes_only_grow (mkFastAPI 5) router_store [3%positive] eq_refl)
    as (Hadd & _ & Hret).
  split; [reflexivity |]. split; [apply Hadd |].
  destruct (Hret (mkAPIRouter 6) "/api" [1%positive; 2%positive]) as (h' & Hrun).
  - discriminate.
  - reflexivity.
  - repeat constructor; vm_compute; eauto.
  - exists h'. apply Hrun. simpl. lia.
Defined.

(** C8 (as stated) fails on a router with three entries for two objects:
    the object listed twice is prefixed twice by one call and four times
    by two calls, so after two calls with prefix /api its path is not
    /api/api followed by the original path. *)
Lemma include_router_three_entries_counterexample :
  exists (h1 h2 : heap) (a a1 a2 : APIRoute),
    lsts three_entry_store !! router_routes (mkAPIRouter 6)
      = Some [2%positive; 1%positive; 2%positive]
    /\ objs three_entry_store !! 2%positive = Some (RAPI a)
    /\ include_router 4 (mkFastAPI 5) (mkAPIRouter 6) "/api" three_entry_store = Done h1
    /\ include_router 4 (mkFastAPI 5) (mkAPIRouter 6) "/api" h1 = Done h2
    /\ objs h1 !! 2%positive = Some (RAPI a1)
    /\ objs h2 !! 2%positive = Some (RAPI a2)
    /\ path a = "/b"
    /\ path a1 = "/api/api/b"
    /\ path a2 = "/api/api/api/api/b"
    /\ path a1 ≠ "/api" +:+ path a
    /\ path a2 ≠ "/api" +:+ ("/api" +:+ path a).
Proof.
  do 5 eexists.
  do 9 (split; [reflexivity |]).
  split; discriminate.
Qed.

(** C8 (amended): [include_router] rewrites the router's own objects.
    When [router.routes] is not the application's list, the router still
    holds the same objects after the call and the application's list has
    been extended by those very objects; an [APIRoute] listed [k] times
    in [router.routes] carries the prefix [k] times after one call and
    [2k] times after a second call with the same prefix: for an object
    listed once, prefix + old path, then prefix + prefix + old path. *)
Theorem include_router_mutates_router (self : FastAPI) (router : APIRouter)
    (p : string) (h : heap) (xs ys : list loc) :
  router_routes router ≠ routes self ->
  lsts h !! router_routes router = Some xs ->
  lsts h !! routes self = Some ys ->
  live h xs ->
  exists h1 h2 : heap,
    (forall fuel : nat, length xs < fuel -> include_router fuel self router p h = Done h1)
    /\ (forall fuel : nat, length xs < fuel -> include_router fuel self router p h1 = Done h2)
    /\ lsts h1 !! router_routes router = Some xs
    /\ lsts h2 !! router_routes router = Some xs
    /\ lsts h1 !! routes self = Some (ys ++ xs)
    /\ lsts h2 !! routes self = Some (ys ++ xs ++ xs)
    /\ (forall (r : loc) (a : APIRoute),
          r ∈ xs -> objs h !! r = Some (RAPI a) ->
          exists a1 a2 : APIRoute,
            objs h1 !! r = Some (RAPI a1)
            /\ objs h2 !! r = Some (RAPI a2)
            /\ path a1 = prefixed (occurrences r xs) p (path a)
            /\ path a2 = prefixed (2 * occurrences r xs) p (path a)
            /\ (occurrences r xs = 1 ->
                  path a1 = p +:+ path a /\ path a2 = p +:+ (p +:+ path a))).
Proof.
  intros Hne HL HA Hlive.
  destruct (include_router_returns self router p h xs ys Hne HL HA Hlive)
    as (h1 & Hrun1 & Hl1 & Ho1).
  assert (HL1 : lsts h1 !! router_routes router = Some xs).
  { by rewrite Hl1, lookup_insert_ne. }
  assert (HA1 : lsts h1 !! routes self = Some (ys ++ xs)).
  { by rewrite Hl1, lookup_insert_eq. }
  assert (Hlive1 : live h1 xs).
  { unfold live in *. eapply Forall_impl; [exact Hlive |].
    intros l [o Hlo]. rewrite Ho1, Hlo. simpl. eauto. }
  destruct (include_router_returns self router p h1 xs (ys ++ xs) Hne HL1 HA1 Hlive1)
    as (h2 & Hrun2 & Hl2 & Ho2).
  exists h1, h2.
  split; [done |]. split; [done |]. split; [done |].
  split; [by rewrite Hl2, lookup_insert_ne |].
  split; [done |].
  split; [by rewrite Hl2, lookup_insert_eq, <- app_assoc |].
  intros r a _ Hr.
  destruct (iter_prefix_route_API p (occurrences r xs) a) as (a1 & Hit1 & Hp1 & _).
  destruct (iter_prefix_route_API p (occurrences r xs) a1) as (a2 & Hit2 & Hp2 & _).
  assert (H1 : objs h1 !! r = Some (RAPI a1)).
  { rewrite Ho1, Hr. simpl. by rewrite Hit1. }
  assert (H2 : objs h2 !! r = Some (RAPI a2)).
  { rewrite Ho2, H1. simpl. by rewrite Hit2. }
  exists a1, a2. split; [done |]. split; [done |]. split; [done |].
  assert (Hp2' : path a2 = prefixed (2 * occurrences r xs) p (path a)).
  { rewrite Hp2, Hp1, prefixed_add. f_equal. lia. }
  split; [done |].
  intros Hone. rewrite Hp2', Hp1, Hone. done.
Qed.

Lemma include_router_mutates_router_witness :
  router_routes (mkAPIRouter 6) ≠ routes (mkFastAPI 5)
  /\ lsts router_store !! router_routes (mkAPIRouter 6) = Some [1%positive; 2%positive]
  /\ lsts router_store !! routes (mkFastAPI 5) = Some [3%positive]
  /\ live router_store [1%positive; 2%positive]
  /\ exists h1 h2 : heap,
      include_router 3 (mkFastAPI 5) (mkAPIRouter 6) "/v2" router_store = Done h1
      /\ include_router 3 (mkFastAPI 5) (mkAPIRouter 6) "/v2" h1 = Done h2
      /\ lsts h2 !! routes (mkFastAPI 5)
           = Some [3%positive; 1%positive; 2%positive; 1%positive; 2%positive]
      /\ exists a1 a2 : APIRoute,
          objs h1 !! 1%positive = Some (RAPI a1)
          /\ objs h2 !! 1%positive = Some (RAPI a2)
          /\ path a1 = "/v2/items" /\ path a2 = "/v2/v2/items".
Proof.
  assert (Hne : router_routes (mkAPIRouter 6) ≠ routes (mkFastAPI 5)) by discriminate.
  assert (Hlive : live router_store [1%positive; 2%positive]).
  { repeat constructor; vm_compute; eauto. }
  split; [exact Hne |]. split; [reflexivity |]. split; [reflexivity |].
  split; [exact Hlive |].
  destruct (include_router_mutates_router (mkFastAPI 5) (mkAPIRouter 6) "/v2"
              router_store [1%positive; 2%positive] [3%positive]
              Hne eq_refl eq_refl Hlive)
    as (h1 & h2 & Hrun1 & Hrun2 & _ & _ & _ & HA2 & Hpath).
  exists h1, h2.
  split; [apply Hrun1; simpl; lia |]. split; [apply Hrun2; simpl; lia |].
  split; [exact HA2 |].
  destruct (Hpath 1%positive (mkAPIRoute "/items" (PRef 7) ["GET"] PNone ∅))
    as (a1 & a2 & H1 & H2 & _ & _ & Hp); [set_solver | reflexivity |].
  destruct (Hp eq_refl) as [Hp1 Hp2].
  exists a1, a2. done.
Defined.

(** C9: a route of the router that is not an [APIRoute] is left as it
    was, whatever the prefix: after any call that returns, the object is
    unchanged and the application's list refers to it; and on a router
    whose list is not the application's own the call returns, with the
    router's entries appended in order. *)
Theorem include_router_keeps_other_routes (self : FastAPI) (router : APIRouter)
    (p : string) (h : heap) (xs ys : list loc) (r : loc) (o : route) :
  lsts h !! router_routes router = Some xs ->
  lsts h !! routes self = Some ys ->
  live h xs ->
  r ∈ xs ->
  objs h !! r = Some o ->
  isinstance_APIRoute o = false ->
  (forall (fuel : nat) (h' : heap),
      include_router fuel self router p h = Done h' ->
      objs h' !! r = Some o
      /\ exists zs : list loc, lsts h' !! routes self = Some zs /\ r ∈ zs)
  /\ (router_routes router ≠ routes self ->
      exists h' : heap,
        (forall fuel : nat, length xs < fuel ->
           include_router fuel self router p h = Done h')
        /\ objs h' !! r = Some o
        /\ lsts h' !! routes self = Some (ys ++ xs)).
Proof.
  intros HL HA Hlive Hin Ho Hk.
  assert (Hret : router_routes router ≠ routes self ->
          exists h' : heap,
            (forall fuel : nat, length xs < fuel ->
               include_router fuel self router p h = Done h')
            /\ objs h' !! r = Some o
            /\ lsts h' !! routes self = Some (ys ++ xs)).
  { intros Hne.
    destruct (include_router_returns self router p h xs ys Hne HL HA Hlive)
      as (h' & Hrun & Hl & _).
    exists h'. split; [done |]. split.
    - apply (for_routes_keeps_other self p (router_routes router) r o
               (S (length xs)) 0 h h' Ho Hk).
      unfold include_router in Hrun. apply Hrun. lia.
    - by rewrite Hl, lookup_insert_eq. }
  split.
  - intros fuel h' Hrun.
    split; [by eapply for_routes_keeps_other |].
    destruct (decide (router_routes router = routes self)) as [Heq | Hne].
    + destruct (for_routes_grows self p _ ys fuel 0 h h' HA Hrun) as (zs & Hz & Hpre).
      exists zs. split; [done |].
      assert (xs = ys) by (rewrite Heq in HL; congruence). subst ys.
      destruct Hpre as [k ->]. apply elem_of_app. by left.
    + destruct (Hret Hne) as (h'' & Hrun' & _ & Hz).
      assert (h' = h'').
      { specialize (Hrun' (fuel + S (length xs))). unfold include_router in *.
        apply (for_routes_more_fuel _ _ _ fuel (fuel + S (length xs))) in Hrun; [| lia].
        rewrite Hrun' in Hrun by lia. by inversion Hrun. }
      subst h''. exists (ys ++ xs). split; [done |].
      apply elem_of_app. by right.
  - intros Hne. destruct (Hret Hne) as (h' & ? & ? & ?). by exists h'.
Qed.

Lemma include_router_keeps_other_routes_witness :
  lsts router_store !! router_routes (mkAPIRouter 6) = Some [1%positive; 2%positive]
  /\ lsts router_store !! routes (mkFastAPI 5) = Some [3%positive]
  /\ live router_store [1%positive; 2%positive]
  /\ 2%positive ∈ [1%positive; 2%positive]
  /\ objs router_store !! 2%positive = Some (ROther "/static" (PRef 8))
  /\ isinstance_APIRoute (ROther "/static" (PRef 8)) = false
  /\ exists h' : heap,
      include_router 3 (mkFastAPI 5) (mkAPIRouter 6) "/api" router_store = Done h'
      /\ objs h' !! 2%positive = Some (ROther "/static" (PRef 8))
      /\ lsts h' !! routes (mkFastAPI 5) = Some [3%positive; 1%positive; 2%positive].
Proof.
  assert (Hlive : live router_store [1%positive; 2%positive]).
  { repeat constructor; vm_compute; eauto. }
  assert (Hin : 2%positive ∈ [1%positive; 2%positive]).
  { apply elem_of_cons. right. apply elem_of_cons. by left. }
  split; [reflexivity |]. split; [reflexivity |]. split; [exact Hlive |].
  split; [exact Hin |]. split; [reflexivity |]. split; [reflexivity |].
  destruct (proj2 (include_router_keeps_other_routes (mkFastAPI 5) (mkAPIRouter 6) "/api"
                     router_store [1%positive; 2%positive] [3%positive] 2%positive
                     (ROther "/static" (PRef 8))
                     eq_refl eq_refl Hlive Hin eq_refl eq_refl))
    as (h' & Hrun & Ho & Hz); [discriminate |].
  exists h'. split; [apply Hrun; simpl; lia |]. done.
Defined.

(** * Further properties of the methods *)

(** ** [include_router] called on the application's own list *)

Lemma for_routes_own_list_forever (self : FastAPI) (p : string) (fuel : nat) :
  forall (i : nat) (h : heap) (xs : list loc),
    lsts h !! routes self = Some xs ->
    live h xs ->
    i < length xs ->
    for_routes fuel self p (routes self) i h = OutOfFuel.
Proof.
  induction fuel as [| fuel IH]; intros i h xs Hx Hlive Hi; [done |].
  simpl. rewrite Hx.
  destruct (lookup_lt_is_Some_2 xs i Hi) as [r Hr]. rewrite Hr.
  assert (Hro : is_Some (objs h !! r)).
  { unfold live in Hlive. rewrite Forall_forall in Hlive. apply Hlive.
    by eapply list_elem_of_lookup_2. }
  destruct Hro as [o Ho].
  rewrite (include_body_Some self p r h o xs Ho Hx).
  apply (IH (S i) _ (xs ++ [r])).
  - simpl. by rewrite lookup_insert_eq.
  - apply live_insert. unfold live. apply Forall_app. split; [done |].
    apply Forall_singleton. by exists o.
  - rewrite length_app. simpl. lia.
Qed.

(** X1: when [router.routes] is the application's own routes list and that
    list is not empty, [include_router] does not return: every round
    appends to the list being iterated, so no amount of fuel reaches the
    end of it. *)
Theorem include_router_own_list_runs_forever (self : FastAPI) (router : APIRouter)
    (p : string) (h : heap) (xs : list loc) (fuel : nat) :
  router_routes router = routes self ->
  lsts h !! routes self = Some xs ->
  xs ≠ [] ->
  live h xs ->
  include_router fuel self router p h = OutOfFuel.
Proof.
  intros Heq Hx Hne Hlive. unfold include_router. rewrite Heq.
  apply (for_routes_own_list_forever self p fuel 0 h xs Hx Hlive).
  destruct xs; [done | simpl; lia].
Qed.

Lemma include_router_own_list_runs_forever_witness :
  router_routes (mkAPIRouter 5) = routes (mkFastAPI 5)
  /\ lsts router_store !! routes (mkFastAPI 5) = Some [3%positive]
  /\ [3%positive] ≠ []
  /\ live router_store [3%positive]
  /\ include_router 1000 (mkFastAPI 5) (mkAPIRouter 5) "/api" router_store = OutOfFuel.
Proof.
  assert (Hlive : live router_store [3%positive]).
  { repeat constructor; vm_compute; eauto. }
  split; [reflexivity |]. split; [reflexivity |]. split; [discriminate |].
  split; [exact Hlive |].
  apply (include_router_own_list_runs_forever (mkFastAPI 5) (mkAPIRouter 5) "/api"
           router_store [3%positive] 1000 eq_refl eq_refl); [discriminate | exact Hlive].
Defined.

(** ** What [include_router] leaves alone *)

Lemma prefix_route_empty (o : route) : prefix_route "" o = o.
Proof. by destruct o as [[] |]. Qed.

(** X2: with the default prefix (the empty string) a call that returns has
    changed no route object at all: the only effect is on the
    application's list. *)
Theorem include_router_empty_prefix (self : FastAPI) (router : APIRouter)
    (h h' : heap) (fuel : nat) :
  include_router fuel self router "" h = Done h' ->
  objs h' = objs h.
Proof.
  intros Hrun. unfold include_router in Hrun.
  apply (for_routes_invariant (fun g => objs g = objs h) self "" (router_routes router))
    with (fuel := fuel) (i := 0) (h := h); [| done | done].
  intros r g g1 Hg Hb.
  apply include_body_inv in Hb as (o & zs & Ho & _ & ->). simpl.
  rewrite prefix_route_empty. by rewrite insert_id.
Qed.

Lemma include_router_empty_prefix_witness :
  include_router 3 (mkFastAPI 5) (mkAPIRouter 6) "" router_store
    = Done (Heap (objs router_store)
                 (<[5%positive := [3%positive; 1%positive; 2%positive]]>
                    (lsts router_store)))
  /\ objs (Heap (objs router_store)
                (<[5%positive := [3%positive; 1%positive; 2%positive]]>
                   (lsts router_store))) = objs router_store.
Proof.
  assert (Hrun : include_router 3 (mkFastAPI 5) (mkAPIRouter 6) "" router_store
            = Done (Heap (objs router_store)
                         (<[5%positive := [3%positive; 1%positive; 2%positive]]>
                            (lsts router_store)))) by reflexivity.
  split; [exact Hrun |].
  exact (include_router_empty_prefix (mkFastAPI 5) (mkAPIRouter 6) router_store _ 3 Hrun).
Defined.

(** X3: a call that returns has created and deleted no route object, has
    kept every object in its class, and has changed nothing of an
    [APIRoute] but its path, which has some number of copies of the
    prefix in front of the old one. *)
Theorem include_router_only_rewrites_paths (self : FastAPI) (router : APIRouter)
    (p : string) (h h' : heap) (fuel : nat) :
  include_router fuel self router p h = Done h' ->
  dom (objs h') = dom (objs h)
  /\ (forall (l : loc) (a : APIRoute),
        objs h !! l = Some (RAPI a) ->
        exists (a' : APIRoute) (k : nat),
          objs h' !! l = Some (RAPI a')
          /\ path a' = prefixed k p (path a)
          /\ endpoint a' = endpoint a /\ methods a' = methods a
          /\ response_model a' = response_model a /\ kwargs a' = kwargs a)
  /\ (forall (l : loc) (q : string) (rest : pyobj),
        objs h !! l = Some (ROther q rest) -> objs h' !! l = Some (ROther q rest)).
Proof.
  intros Hrun. unfold include_router in Hrun. split; [| split].
  - apply (for_routes_invariant (fun g => dom (objs g) = dom (objs h)) self p
             (router_routes router)) with (fuel := fuel) (i := 0) (h := h);
      [| done | done].
    intros r g g1 Hg Hb.
    apply include_body_inv in Hb as (o & zs & Ho & _ & ->). simpl.
    rewrite dom_insert_lookup_L; [done | by exists o].
  - intros l a Hl.
    apply (for_routes_invariant
             (fun g => exists (a' : APIRoute) (k : nat),
                  objs g !! l = Some (RAPI a')
                  /\ path a' = prefixed k p (path a)
                  /\ endpoint a' = endpoint a /\ methods a' = methods a
                  /\ response_model a' = response_model a /\ kwargs a' = kwargs a)
             self p (router_routes router)) with (fuel := fuel) (i := 0) (h := h);
      [| by exists a, 0 | done].
    intros r g g1 (a' & k & Hg & Hp & He & Hm & Hr & Hkw) Hb.
    apply include_body_inv in Hb as (o & zs & Ho & _ & ->). simpl.
    destruct (decide (r = l)) as [-> | Hne].
    + rewrite Hg in Ho. inversion Ho; subst o. simpl.
      exists (prefix_path p a'), (S k). rewrite lookup_insert_eq.
      split; [done |]. simpl. unfold prefixed in *. simpl. by rewrite Hp.
    + exists a', k. by rewrite lookup_insert_ne.
  - intros l q rest Hl.
    by apply (for_routes_keeps_other self p (router_routes router) l _ fuel 0 h h').
Qed.

Lemma include_router_only_rewrites_paths_witness :
  exists h' : heap,
    include_router 3 (mkFastAPI 5) (mkAPIRouter 6) "/api" router_store = Done h'
    /\ dom (objs h') = dom (objs router_store).
Proof.
  eexists. split; [reflexivity |].
  exact (proj1 (include_router_only_rewrites_paths (mkFastAPI 5) (mkAPIRouter 6) "/api"
                  router_store _ 3 eq_refl)).
Defined.

(** X4: a call that returns has changed no list object other than the
    application's routes list; in particular the router's own list, when
    it is a different object, still has the entries it had. *)
Theorem include_router_other_lists_unchanged (self : FastAPI) (router : APIRouter)
    (p : string) (h h' : heap) (fuel : nat) :
  include_router fuel self router p h = Done h' ->
  forall l : loc, l ≠ routes self -> lsts h' !! l = lsts h !! l.
Proof.
  intros Hrun l Hne. unfold include_router in Hrun.
  apply (for_routes_invariant (fun g => lsts g !! l = lsts h !! l) self p
           (router_routes router)) with (fuel := fuel) (i := 0) (h := h);
    [| done | done].
  intros r g g1 Hg Hb.
  apply include_body_inv in Hb as (o & zs & _ & _ & ->). simpl.
  by rewrite lookup_insert_ne.
Qed.

Lemma include_router_other_lists_unchanged_witness :
  exists h' : heap,
    include_router 3 (mkFastAPI 5) (mkAPIRouter 6) "/api" router_store = Done h'
    /\ lsts h' !! 6%positive = Some [1%positive; 2%positive].
Proof.
  eexists. split; [reflexivity |].
  etrans; [| reflexivity].
  apply (include_router_other_lists_unchanged (mkFastAPI 5) (mkAPIRouter 6) "/api"
           router_store _ 3 eq_refl 6%positive).
  discriminate.
Defined.

Lemma occurrences_not_elem (l : loc) (xs : list loc) : l ∉ xs -> occurrences l xs = 0.
Proof.
  induction xs as [| x xs IH]; intros Hn; [done |].
  apply not_elem_of_cons in Hn as [Hne Hn]. simpl.
  destruct (decide (x = l)); [congruence |]. by rewrite IH.
Qed.

(** X5: a route object to which [router.routes] does not refer is not
    touched, whether or not the application already lists it. *)
Theorem include_router_unlisted_unchanged (self : FastAPI) (router : APIRouter)
    (p : string) (h : heap) (xs ys : list loc) (l : loc) :
  router_routes router ≠ routes self ->
  lsts h !! router_routes router = Some xs ->
  lsts h !! routes self = Some ys ->
  live h xs ->
  l ∉ xs ->
  exists h' : heap,
    (forall fuel : nat, length xs < fuel -> include_router fuel self router p h = Done h')
    /\ objs h' !! l = objs h !! l.
Proof.
  intros Hne HL HA Hlive Hl.
  destruct (include_router_returns self router p h xs ys Hne HL HA Hlive)
    as (h' & Hrun & _ & Ho).
  exists h'. split; [done |].
  rewrite Ho, (occurrences_not_elem l xs Hl). simpl. by destruct (objs h !! l).
Qed.

Lemma include_router_unlisted_unchanged_witness :
  router_routes (mkAPIRouter 6) ≠ routes (mkFastAPI 5)
  /\ lsts router_store !! router_routes (mkAPIRouter 6) = Some [1%positive; 2%positive]
  /\ lsts router_store !! routes (mkFastAPI 5) = Some [3%positive]
  /\ live router_store [1%positive; 2%positive]
  /\ (3%positive ∉ [1%positive; 2%positive])
  /\ exists h' : heap,
      include_router 3 (mkFastAPI 5) (mkAPIRouter 6) "/api" router_store = Done h'
      /\ objs h' !! 3%positive = objs router_store !! 3%positive.
Proof.
  assert (Hne : router_routes (mkAPIRouter 6) ≠ routes (mkFastAPI 5)) by discriminate.
  assert (Hlive : live router_store [1%positive; 2%positive]).
  { repeat constructor; vm_compute; eauto. }
  assert (Hl : 3%positive ∉ [1%positive; 2%positive]).
  { rewrite !not_elem_of_cons. repeat split; [discriminate | discriminate |].
    apply not_elem_of_nil. }
  split; [exact Hne |]. split; [reflexivity |]. split; [reflexivity |].
  split; [exact Hlive |]. split; [exact Hl |].
  destruct (include_router_unlisted_unchanged (mkFastAPI 5) (mkAPIRouter 6) "/api"
              router_store [1%positive; 2%positive] [3%positive] 3%positive
              Hne eq_refl eq_refl Hlive Hl) as (h' & Hrun & Ho).
  exists h'. split; [apply Hrun; simpl; lia | exact Ho].
Defined.

(** ** How far a path grows *)

Lemma append_length (s t : string) :
  String.length (s +:+ t) = String.length s + String.length t.
Proof. induction s as [| c s IH]; [done |]. simpl. by rewrite IH. Qed.

Lemma prefixed_length (k : nat) (p s : string) :
  String.length (prefixed k p s) = k * String.length p + String.length s.
Proof.
  induction k as [| k IH]; [done |].
  unfold prefixed in *. simpl. rewrite append_length, IH. lia.
Qed.

(** X6: with a non-empty prefix every [APIRoute] the router lists comes out
    with a different path: its length has grown by the length of the
    prefix for each entry of [router.routes] that refers to it.  This
    holds for objects the application had already registered as well. *)
Theorem include_router_path_grows (self : FastAPI) (router : APIRouter)
    (p : string) (h : heap) (xs ys : list loc) (r : loc) (a : APIRoute) :
  router_routes router ≠ routes self ->
  lsts h !! router_routes router = Some xs ->
  lsts h !! routes self = Some ys ->
  live h xs ->
  r ∈ xs ->
  objs h !! r = Some (RAPI a) ->
  p ≠ "" ->
  exists (h' : heap) (a' : APIRoute),
    (forall fuel : nat, length xs < fuel -> include_router fuel self router p h = Done h')
    /\ objs h' !! r = Some (RAPI a')
    /\ String.length (path a')
         = occurrences r xs * String.length p + String.length (path a)
    /\ path a' ≠ path a.
Proof.
  intros Hne HL HA Hlive Hin Hr Hp.
  destruct (include_router_returns self router p h xs ys Hne HL HA Hlive)
    as (h' & Hrun & _ & Ho).
  destruct (iter_prefix_route_API p (occurrences r xs) a) as (a' & Hit & Hpa & _).
  exists h', a'. split; [done |].
  split; [by rewrite Ho, Hr; simpl; rewrite Hit |].
  assert (Hlen : String.length (path a')
                 = occurrences r xs * String.length p + String.length (path a)).
  { by rewrite Hpa, prefixed_length. }
  split; [done |].
  intros Heq. rewrite Heq in Hlen.
  pose proof (occurrences_elem r xs Hin) as Hocc.
  assert (0 < String.length p) by (destruct p; [done | simpl; lia]).
  nia.
Qed.

Lemma include_router_path_grows_witness :
  router_routes (mkAPIRouter 6) ≠ routes (mkFastAPI 5)
  /\ lsts three_entry_store !! router_routes (mkAPIRouter 6)
       = Some [2%positive; 1%positive; 2%positive]
  /\ lsts three_entry_store !! routes (mkFastAPI 5) = Some []
  /\ live three_entry_store [2%positive; 1%positive; 2%positive]
  /\ 2%positive ∈ [2%positive; 1%positive; 2%positive]
  /\ objs three_entry_store !! 2%positive
       = Some (RAPI (mkAPIRoute "/b" (PRef 8) ["GET"] PNone ∅))
  /\ "/v1" ≠ ""
  /\ exists (h' : heap) (a' : APIRoute),
      include_router 4 (mkFastAPI 5) (mkAPIRouter 6) "/v1" three_entry_store = Done h'
      /\ objs h' !! 2%positive = Some (RAPI a')
      /\ String.length (path a') = 8.
Proof.
  assert (Hne : router_routes (mkAPIRouter 6) ≠ routes (mkFastAPI 5)) by discriminate.
  assert (Hlive : live three_entry_store [2%positive; 1%positive; 2%positive]).
  { repeat constructor; vm_compute; eauto. }
  assert (Hin : 2%positive ∈ [2%positive; 1%positive; 2%positive]).
  { apply elem_of_cons. by left. }
  assert (Hp : "/v1" ≠ "") by discriminate.
  split; [exact Hne |]. split; [reflexivity |]. split; [reflexivity |].
  split; [exact Hlive |]. split; [exact Hin |]. split; [reflexivity |].
  split; [exact Hp |].
  destruct (include_router_path_grows (mkFastAPI 5) (mkAPIRouter 6) "/v1"
              three_entry_store [2%positive; 1%positive; 2%positive] [] 2%positive
              (mkAPIRoute "/b" (PRef 8) ["GET"] PNone ∅)
              Hne eq_refl eq_refl Hlive Hin eq_refl Hp)
    as (h' & a' & Hrun & Ho & Hlen & _).
  exists h', a'. split; [apply Hrun; simpl; lia |]. split; [exact Ho | exact Hlen].
Defined.

(** X7: two prefixes in sequence nest: after including the router with [p]
    and then again with [q], an [APIRoute] listed [k] times carries [q]
    [k] times in front of [p] [k] times in front of its old path; the
    later prefix is the outer one. *)
Theorem include_router_prefixes_nest (self : FastAPI) (router : APIRouter)
    (p q : string) (h : heap) (xs ys : list loc) :
  router_routes router ≠ routes self ->
  lsts h !! router_routes router = Some xs ->
  lsts h !! routes self = Some ys ->
  live h xs ->
  exists h1 h2 : heap,
    (forall fuel : nat, length xs < fuel -> include_router fuel self router p h = Done h1)
    /\ (forall fuel : nat, length xs < fuel -> include_router fuel self router q h1 = Done h2)
    /\ lsts h2 !! routes self = Some (ys ++ xs ++ xs)
    /\ (forall (r : loc) (a : APIRoute),
          objs h !! r = Some (RAPI a) ->
          exists a2 : APIRoute,
            objs h2 !! r = Some (RAPI a2)
            /\ path a2 = prefixed (occurrences r xs) q
                           (prefixed (occurrences r xs) p (path a))
            /\ (occurrences r xs = 1 -> path a2 = q +:+ (p +:+ path a))).
Proof.
  intros Hne HL HA Hlive.
  destruct (include_router_returns self router p h xs ys Hne HL HA Hlive)
    as (h1 & Hrun1 & Hl1 & Ho1).
  assert (HL1 : lsts h1 !! router_routes router = Some xs).
  { by rewrite Hl1, lookup_insert_ne. }
  assert (HA1 : lsts h1 !! routes self = Some (ys ++ xs)).
  { by rewrite Hl1, lookup_insert_eq. }
  assert (Hlive1 : live h1 xs).
  { unfold live in *. eapply Forall_impl; [exact Hlive |].
    intros l [o Hlo]. rewrite Ho1, Hlo. simpl. eauto. }
  destruct (include_router_returns self router q h1 xs (ys ++ xs) Hne HL1 HA1 Hlive1)
    as (h2 & Hrun2 & Hl2 & Ho2).
  exists h1, h2. split; [done |]. split; [done |].
  split; [by rewrite Hl2, lookup_insert_eq, <- app_assoc |].
  intros r a Hr.
  destruct (iter_prefix_route_API p (occurrences r xs) a) as (a1 & Hit1 & Hp1 & _).
  destruct (iter_prefix_route_API q (occurrences r xs) a1) as (a2 & Hit2 & Hp2 & _).
  exists a2. split.
  - rewrite Ho2, Ho1, Hr. simpl. by rewrite Hit1, Hit2.
  - rewrite Hp2, Hp1. split; [done |]. by intros ->.
Qed.

Lemma include_router_prefixes_nest_witness :
  router_routes (mkAPIRouter 6) ≠ routes (mkFastAPI 5)
  /\ lsts router_store !! router_routes (mkAPIRouter 6) = Some [1%positive; 2%positive]
  /\ lsts router_store !! routes (mkFastAPI 5) = Some [3%positive]
  /\ live router_store [1%positive; 2%positive]
  /\ exists (h1 h2 : heap) (a2 : APIRoute),
      include_router 3 (mkFastAPI 5) (mkAPIRouter 6) "/v1" router_store = Done h1
      /\ include_router 3 (mkFastAPI 5) (mkAPIRouter 6) "/api" h1 = Done h2
      /\ objs h2 !! 1%positive = Some (RAPI a2)
      /\ path a2 = "/api/v1/items".
Proof.
  assert (Hne : router_routes (mkAPIRouter 6) ≠ routes (mkFastAPI 5)) by discriminate.
  assert (Hlive : live router_store [1%positive; 2%positive]).
  { repeat constructor; vm_compute; eauto. }
  split; [exact Hne |]. split; [reflexivity |]. split; [reflexivity |].
  split; [exact Hlive |].
  destruct (include_router_prefixes_nest (mkFastAPI 5) (mkAPIRouter 6) "/v1" "/api"
              router_store [1%positive; 2%positive] [3%positive]
              Hne eq_refl eq_refl Hlive) as (h1 & h2 & Hrun1 & Hrun2 & _ & Hpath).
  destruct (Hpath 1%positive (mkAPIRoute "/items" (PRef 7) ["GET"] PNone ∅) eq_refl)
    as (a2 & Ho & _ & Hp).
  exists h1, h2, a2.
  split; [apply Hrun1; simpl; lia |]. split; [apply Hrun2; simpl; lia |].
  split; [exact Ho |]. by apply Hp.
Defined.

(** ** Composing registrations *)


(** X8: two calls of [add_api_route] register two different objects, in call
    order, and the second call leaves the route of the first as it was
    created. *)
Theorem add_api_route_twice (self : FastAPI) (h : heap) (ys : list loc)
    (p1 p2 : string) (ep1 ep2 : pyobj) (ms1 ms2 : option (list string))
    (rm1 rm2 : pyobj) (kw1 kw2 : gmap string pyobj) :
  lsts h !! routes self = Some ys ->
  exists (h1 h2 : heap) (l1 l2 : loc),
    add_api_route self p1 ep1 ms1 rm1 kw1 h = Done h1
    /\ add_api_route self p2 ep2 ms2 rm2 kw2 h1 = Done h2
    /\ l1 ≠ l2
    /\ lsts h2 !! routes self = Some (ys ++ [l1; l2])
    /\ objs h2 !! l1 = Some (RAPI (mkAPIRoute p1 ep1 (methods_or_GET ms1) rm1 kw1))
    /\ objs h2 !! l2 = Some (RAPI (mkAPIRoute p2 ep2 (methods_or_GET ms2) rm2 kw2)).
Proof.
  intros HA.
  pose proof (add_api_route_Done self p1 ep1 ms1 rm1 kw1 h ys HA) as H1.
  set (h1 := Heap (<[new_loc h := RAPI (mkAPIRoute p1 ep1 (methods_or_GET ms1) rm1 kw1)]>
                     (objs h))
                  (<[routes self := ys ++ [new_loc h]]> (lsts h))) in *.
  assert (HA1 : lsts h1 !! routes self = Some (ys ++ [new_loc h])).
  { subst h1. simpl. by rewrite lookup_insert_eq. }
  pose proof (add_api_route_Done self p2 ep2 ms2 rm2 kw2 h1 _ HA1) as H2.
  assert (Hne : new_loc h ≠ new_loc h1).
  { intros Heq. pose proof (new_loc_fresh h1) as Hf. rewrite <- Heq in Hf.
    subst h1. simpl in Hf. by rewrite lookup_insert_eq in Hf. }
  eexists h1, _, (new_loc h), (new_loc h1).
  split; [exact H1 |]. split; [exact H2 |]. split; [exact Hne |]. simpl.
  split; [by rewrite lookup_insert_eq, <- app_assoc |].
  split.
  - rewrite lookup_insert_ne; [| done]. by rewrite lookup_insert_eq.
  - by rewrite lookup_insert_eq.
Qed.

Lemma add_api_route_twice_witness :
  lsts router_store !! routes (mkFastAPI 5) = Some [3%positive]
  /\ exists (h1 h2 : heap) (l1 l2 : loc),
      add_api_route (mkFastAPI 5) "/a" (PRef 1) None PNone ∅ router_store = Done h1
      /\ add_api_route (mkFastAPI 5) "/b" (PRef 2) (Some ["PUT"]) PNone ∅ h1 = Done h2
      /\ l1 ≠ l2
      /\ lsts h2 !! routes (mkFastAPI 5) = Some ([3%positive] ++ [l1; l2])
      /\ objs h2 !! l1 = Some (RAPI (mkAPIRoute "/a" (PRef 1) (methods_or_GET None) PNone ∅))
      /\ objs h2 !! l2
           = Some (RAPI (mkAPIRoute "/b" (PRef 2) (methods_or_GET (Some ["PUT"])) PNone ∅)).
Proof.
  split; [reflexivity |].
  exact (add_api_route_twice (mkFastAPI 5) router_store [3%positive] "/a" "/b"
           (PRef 1) (PRef 2) None (Some ["PUT"]) PNone PNone ∅ ∅ eq_refl).
Defined.



(** X10: every route [add_api_route] creates accepts at least one method. *)
Theorem add_api_route_methods_nonempty (self : FastAPI) (p : string) (ep : pyobj)
    (ms : option (list string)) (rm : pyobj) (kw : gmap string pyobj)
    (h : heap) (ys : list loc) :
  lsts h !! routes self = Some ys ->
  exists (h' : heap) (l : loc) (a : APIRoute),
    add_api_route self p ep ms rm kw h = Done h'
    /\ lsts h' !! routes self = Some (ys ++ [l])
    /\ objs h' !! l = Some (RAPI a)
    /\ methods a ≠ [].
Proof.
  intros HA. eexists _, (new_loc h), _.
  split; [by apply add_api_route_Done |]. simpl.
  split; [by rewrite lookup_insert_eq |]. split; [by rewrite lookup_insert_eq |].
  simpl. by destruct ms as [[| m ms] |].
Qed.

Lemma add_api_route_methods_nonempty_witness :
  lsts router_store !! routes (mkFastAPI 5) = Some [3%positive]
  /\ exists (h' : heap) (l : loc) (a : APIRoute),
      add_api_route (mkFastAPI 5) "/a" (PRef 1) (Some []) PNone ∅ router_store = Done h'
      /\ lsts h' !! routes (mkFastAPI 5) = Some ([3%positive] ++ [l])
      /\ objs h' !! l = Some (RAPI a)
      /\ methods a ≠ [].
Proof.
  split; [reflexivity |].
  exact (add_api_route_methods_nonempty (mkFastAPI 5) "/a" (PRef 1) (Some []) PNone ∅
           router_store [3%positive] eq_refl).
Defined.

(** ** No dangling references *)

Lemma live_app_one (h : heap) (xs : list loc) (r : loc) :
  live h xs -> is_Some (objs h !! r) -> live h (xs ++ [r]).
Proof.
  intros Hxs Hr. unfold live. apply Forall_app. split; [done |].
  by apply Forall_singleton.
Qed.

(** X11: [add_api_route] keeps the store well formed: if every list held
    live references before the call, every list does after it. *)
Theorem add_api_route_keeps_wf (self : FastAPI) (p : string) (ep : pyobj)
    (ms : option (list string)) (rm : pyobj) (kw : gmap string pyobj)
    (h : heap) (ys : list loc) :
  wf_store h ->
  lsts h !! routes self = Some ys ->
  exists h' : heap,
    add_api_route self p ep ms rm kw h = Done h' /\ wf_store h'.
Proof.
  intros Hwf HA. eexists. split; [by apply add_api_route_Done |].
  intros l xs Hl. simpl in Hl.
  destruct (decide (routes self = l)) as [<- | Hne].
  - rewrite lookup_insert_eq in Hl. inversion Hl; subst xs.
    apply live_app_one.
    + apply live_insert. by apply (Hwf (routes self)).
    + simpl. by rewrite lookup_insert_eq.
  - rewrite lookup_insert_ne in Hl by done.
    apply live_insert. by apply (Hwf l).
Qed.

(** X12: [include_router] keeps the store well formed, after any number of
    rounds: a call that returns leaves no list with a dangling
    reference. *)
Theorem include_router_keeps_wf (self : FastAPI) (router : APIRouter)
    (p : string) (h h' : heap) (fuel : nat) :
  wf_store h ->
  include_router fuel self router p h = Done h' ->
  wf_store h'.
Proof.
  intros Hwf Hrun. unfold include_router in Hrun.
  apply (for_routes_invariant wf_store self p (router_routes router))
    with (fuel := fuel) (i := 0) (h := h); [| done | done].
  intros r g g1 Hg Hb.
  apply include_body_inv in Hb as (o & zs & Ho & Hz & ->).
  intros l xs Hl. simpl in Hl.
  destruct (decide (routes self = l)) as [<- | Hne].
  - rewrite lookup_insert_eq in Hl. inversion Hl; subst xs.
    apply live_app_one.
    + apply live_insert. by apply (Hg (routes self)).
    + simpl. by rewrite lookup_insert_eq.
  - rewrite lookup_insert_ne in Hl by done.
    apply live_insert. by apply (Hg l).
Qed.

Lemma router_store_wf : wf_store router_store.
Proof.
  intros l xs Hl. unfold router_store in Hl. simpl in Hl.
  rewrite lookup_insert, lookup_singleton in Hl.
  repeat case_decide; inversion Hl; subst;
    repeat constructor; vm_compute; eauto.
Defined.

Lemma add_api_route_keeps_wf_witness :
  wf_store router_store
  /\ lsts router_store !! routes (mkFastAPI 5) = Some [3%positive]
  /\ exists h' : heap,
      add_api_route (mkFastAPI 5) "/a" (PRef 1) None PNone ∅ router_store = Done h'
      /\ wf_store h'.
Proof.
  split; [exact router_store_wf |]. split; [reflexivity |].
  exact (add_api_route_keeps_wf (mkFastAPI 5) "/a" (PRef 1) None PNone ∅
           router_store [3%positive] router_store_wf eq_refl).
Defined.

Lemma include_router_keeps_wf_witness :
  wf_store router_store
  /\ exists h' : heap,
      include_router 3 (mkFastAPI 5) (mkAPIRouter 6) "/api" router_store = Done h'
      /\ wf_store h'.
Proof.
  split; [exact router_store_wf |].
  eexists. split; [reflexivity |].
  exact (include_router_keeps_wf (mkFastAPI 5) (mkAPIRouter 6) "/api" router_store _ 3
           router_store_wf eq_refl).
Defined.

(** ** The keywords [__init__] hands on *)

Lemma init_defaults_dom : dom init_defaults = list_to_set init_names.
Proof. unfold init_defaults. by rewrite dom_list_to_map_L. Qed.

(** X13: the base constructor receives the caller's keywords and the seven
    parameter names, no keyword more and none less.  The part passed as
    [extra] never holds a parameter name, so it cannot clash with the
    seven explicit keywords of the call, and it holds every other keyword
    of the caller at the caller's value. *)
Theorem FastAPI_init_keywords (kw : gmap string pyobj) :
  dom (super_kwargs (bind_init kw)) = dom kw ∪ list_to_set init_names
  /\ (forall k : string, k ∈ init_names -> extra (bind_init kw) !! k = None)
  /\ (forall k : string, k ∉ init_names ->
        extra (bind_init kw) !! k = kw !! k
        /\ super_kwargs (bind_init kw) !! k = kw !! k).
Proof.
  split; [| split].
  - by rewrite super_kwargs_bind, dom_union_L, init_defaults_dom.
  - intros k Hk. rewrite extra_lookup. by case_decide.
  - intros k Hk. split.
    + rewrite extra_lookup. by case_decide.
    + rewrite super_kwargs_bind, lookup_union.
      assert (Hd : init_defaults !! k = None).
      { apply eq_None_not_Some. intros Hs. by apply Hk, init_defaults_names. }
      rewrite Hd. by destruct (kw !! k).
Qed.

(** X14: forwarding is idempotent: a constructor that forwards to
    [FastAPI.__init__] the way [FastAPI.__init__] forwards to its base
    reaches the base constructor with the same keywords as a direct
    call. *)
Theorem FastAPI_init_idempotent {R : Type} (Starlette_init : gmap string pyobj -> R)
    (kw : gmap string pyobj) :
  FastAPI_init (FastAPI_init Starlette_init) kw = FastAPI_init Starlette_init kw.
Proof.
  unfold FastAPI_init. f_equal. rewrite !super_kwargs_bind.
  rewrite <- (assoc_L (∪)). by rewrite (idemp_L (∪)).
Qed.
